(** * ext/server.py: startup contract of the agent server script

    The script is one straight-line module body: it reads two environment
    variables, refuses to continue without a base URL, builds five framework
    objects and the web handler, and, when executed as the main entry point,
    hands the handler to the ASGI server.

    The embedding follows the module body statement by statement in a small
    state-and-exception monad.  The framework constructors (InMemoryDb,
    OpenAIChat, Agent, AGUI, AgentOS, AgentOS.get_app) and uvicorn.run are
    external collaborators: a constructor call allocates an object that
    records the arguments it was given, and uvicorn.run is recorded as an
    event carrying its arguments.  The import statements of lines 1-11 are
    not part of the embedding: [globals] holds the names assigned on lines
    13-31.

    Two things the script uses belong to the process it runs in: the
    conversion [int] of the interpreter and what uvicorn.run does once
    called.  [server] fixes both ([Py.int], and a call that returns);
    [module_body] is the same module body with both left open. *)

From Stdlib Require Import ZArith String Ascii List Bool Lia.
From stdpp Require Import gmap strings list.

Local Open Scope string_scope.
Local Open Scope Z_scope.

(** ** Python builtins used by the script *)

Module Py.

(** Code point of a character. *)
Definition ord (c : ascii) : Z := Z.of_N (N_of_ascii c).

(** The interpreter's ASCII white space: TAB, LF, VT, FF, CR and SPACE. *)
Definition isspace (c : ascii) : bool :=
  ((9 <=? ord c) && (ord c <=? 13)) || (ord c =? 32).

(** Value of a decimal digit. *)
Definition digit (c : ascii) : option Z :=
  if (48 <=? ord c) && (ord c <=? 57) then Some (ord c - 48) else None.

Fixpoint skip_space (s : string) : string :=
  match s with
  | String c rest => if isspace c then skip_space rest else s
  | EmptyString => s
  end.

(** The digit loop of the string-to-integer conversion in base 10: digits
    and single underscores are consumed; two underscores in a row or a
    trailing underscore are errors.  Returns the value, the number of
    digits read and the unread rest. *)
Fixpoint scan_digits (s : string) (prev_underscore : bool) (acc digits : Z)
  : option (Z * Z * string) :=
  match s with
  | String c rest =>
      if Ascii.eqb c "_" then
        if prev_underscore then None
        else scan_digits rest true acc digits
      else
        match digit c with
        | Some d => scan_digits rest false (10 * acc + d) (digits + 1)
        | None => if prev_underscore then None else Some (acc, digits, s)
        end
  | EmptyString => if prev_underscore then None else Some (acc, digits, s)
  end.

(** Default of [sys.int_max_str_digits]. *)
Definition int_max_str_digits : Z := 4300.

(** [int(s)] for a string of ASCII characters: [Some n] when the call
    returns [n], [None] when it raises ValueError.  Leading white space, an
    optional sign, digits with single underscores between them, trailing
    white space.  (On text outside ASCII the interpreter also accepts other
    decimal digits and spaces of Unicode; those strings are outside this
    model and are rejected by it.) *)
Definition int (s : string) : option Z :=
  let s1 := skip_space s in
  let '(negative, s2) :=
    match s1 with
    | String "+" r => (false, r)
    | String "-" r => (true, r)
    | _ => (false, s1)
    end in
  match s2 with
  | String "_" _ => None
  | _ =>
      match scan_digits s2 false 0 0 with
      | None => None
      | Some (v, digits, rest) =>
          if digits =? 0 then None
          else if int_max_str_digits <? digits then None
          else
            match skip_space rest with
            | EmptyString => Some (if negative then - v else v)
            | String _ _ => None
            end
      end
  end.

(** Truth value of an [Optional[str]]: [None] and the empty string are
    false. *)
Definition truthy (v : option string) : bool :=
  match v with
  | Some s => negb (String.eqb s "")
  | None => false
  end.

(** [needle in hay] on strings. *)
Fixpoint contains (needle hay : string) : bool :=
  String.prefix needle hay ||
  match hay with
  | String _ rest => contains needle rest
  | EmptyString => false
  end.

End Py.

(** ** Objects, state and effects *)

(** A reference to a framework object: its index in the heap. *)
Definition ref := nat.

(** Framework objects, each recording the arguments of the call that built
    it.  [App] is what [AgentOS.get_app] returns. *)
Inductive obj : Type :=
| InMemoryDb
| OpenAIChat (id : string) (base_url : option string)
| Agent (model db : ref)
| AGUI (agent : ref)
| AgentOS (description : string) (agents : list ref)
          (enable_mcp_server : bool) (interfaces : list ref)
| App (agent_os : ref).

(** Values bound to module-level names. *)
Inductive value : Type :=
| VNone
| VStr (s : string)
| VRef (r : ref).

Definition value_of_optional (v : option string) : value :=
  match v with
  | Some s => VStr s
  | None => VNone
  end.

(** Observable steps of the script, in the order they happen. *)
Inductive event : Type :=
| EvGetenv (name : string)
| EvNew (r : ref)
| EvServe (app : ref) (host : string) (port : Z).

(** Exceptions the script can end with: the ValueError it raises itself,
    with its message, the ValueError of [int] on a text it rejects, and
    whatever a call of uvicorn.run raises. *)
Inductive exn : Type :=
| ValueError (msg : string)
| IntValueError (text : string)
| ServerError (what : string).

Record state : Type := mkState {
  heap : list obj;
  globals : gmap string value;
  log : list event
}.

Definition initial : state :=
  {| heap := []; globals := ∅; log := [] |}.

Inductive result (A : Type) : Type :=
| Ok (a : A)
| Raise (e : exn).
Arguments Ok {A} a.
Arguments Raise {A} e.

Definition M (A : Type) : Type := state -> result A * state.

Definition ret {A} (a : A) : M A := fun s => (Ok a, s).

Definition bind {A B} (m : M A) (k : A -> M B) : M B :=
  fun s =>
    match m s with
    | (Ok a, s') => k a s'
    | (Raise e, s') => (Raise e, s')
    end.

Definition raise {A} (e : exn) : M A := fun s => (Raise e, s).

Declare Scope py_scope.
Delimit Scope py_scope with py.
Notation "x <- m ;; k" := (bind m (fun x => k))
  (at level 100, m at next level, right associativity) : py_scope.
Notation "m ;; k" := (bind m (fun _ => k))
  (at level 100, right associativity) : py_scope.
Local Open Scope py_scope.

Definition emit (e : event) : M unit :=
  fun s => (Ok tt, {| heap := heap s; globals := globals s; log := log s ++ [e] |}).

(** Module-level assignment [name = v]. *)
Definition assign (name : string) (v : value) : M unit :=
  fun s => (Ok tt, {| heap := heap s; globals := <[name := v]> (globals s); log := log s |}).

(** A constructor call: the new object is placed at the end of the heap. *)
Definition new (o : obj) : M ref :=
  fun s =>
    let r := length (heap s) in
    (Ok r, {| heap := heap s ++ [o]; globals := globals s; log := log s ++ [EvNew r] |}).

(** ** The environment and the calls of the script *)

Section Script.

(** [os.environ]; the script only reads it. *)
Variable environ : gmap string string.

(** [os.getenv(name, None)] *)
Definition getenv (name : string) : M (option string) :=
  emit (EvGetenv name) ;; ret (environ !! name).

(** [os.environ.get(name, fallback)] *)
Definition environ_get (name fallback : string) : M string :=
  emit (EvGetenv name) ;; ret (default fallback (environ !! name)).

(** [int(text)] *)
Definition py_int (text : string) : M Z :=
  match Py.int text with
  | Some n => ret n
  | None => raise (IntValueError text)
  end.

(** [uvicorn.run(app, host=..., port=...)] *)
Definition uvicorn_run (app : ref) (host : string) (port : Z) : M unit :=
  emit (EvServe app host port).

(** The module body of ext/server.py, for the module name [__name__] it is
    run under. *)
Definition server (__name__ : string) : M unit :=
  MODEL_BASE_URL <- getenv "BLOCKETHER_LLM_API_BASE_URL" ;;
  assign "MODEL_BASE_URL" (value_of_optional MODEL_BASE_URL) ;;
  MODEL_API_KEY <- getenv "BLOCKETHER_LLM_API_KEY" ;;
  assign "MODEL_API_KEY" (value_of_optional MODEL_API_KEY) ;;
  (if negb (Py.truthy MODEL_BASE_URL) then
     raise (ValueError "BLOCKETHER_LLM_API_BASE_URL environment variable is not set.")
   else ret tt) ;;
  storage <- new InMemoryDb ;;
  assign "storage" (VRef storage) ;;
  blockether_model <- new (OpenAIChat "gpt-4o" MODEL_BASE_URL) ;;
  assign "blockether_model" (VRef blockether_model) ;;
  conversational_agent <- new (Agent blockether_model storage) ;;
  assign "conversational_agent" (VRef conversational_agent) ;;
  agui <- new (AGUI conversational_agent) ;;
  agent_os <- new (AgentOS "Example app with MCP enabled"
                           [conversational_agent] true [agui]) ;;
  assign "agent_os" (VRef agent_os) ;;
  app <- new (App agent_os) ;;
  assign "app" (VRef app) ;;
  if String.eqb __name__ "__main__" then
    PORT <- environ_get "PORT" "8080" ;;
    port <- py_int PORT ;;
    uvicorn_run app "0.0.0.0" port
  else ret tt.

End Script.

(** Running the script from a fresh interpreter state. *)
Definition run (environ : gmap string string) (__name__ : string)
  : result unit * state :=
  server environ __name__ initial.

(** ** Observations on the final state *)

(** The calls of [uvicorn.run] that were made: application, host, port. *)
Fixpoint serve_calls (l : list event) : list (ref * string * Z) :=
  match l with
  | EvServe app host port :: l' => (app, host, port) :: serve_calls l'
  | _ :: l' => serve_calls l'
  | [] => []
  end.

(** The references handed out by constructor calls, in call order. *)
Fixpoint new_calls (l : list event) : list ref :=
  match l with
  | EvNew r :: l' => r :: new_calls l'
  | _ :: l' => new_calls l'
  | [] => []
  end.

(** The objects built by the constructor calls of the log, in call order. *)
Definition constructed (s : state) : list obj :=
  omap (fun r => heap s !! r) (new_calls (log s)).

(** The error of the configuration check. *)
Definition missing_base_url : exn :=
  ValueError "BLOCKETHER_LLM_API_BASE_URL environment variable is not set.".

(** State in which the configuration check fails: both variables were
    read and bound, nothing else happened. *)
Definition unconfigured (environ : gmap string string) : state :=
  {| heap := [];
     globals :=
       <["MODEL_API_KEY" := value_of_optional (environ !! "BLOCKETHER_LLM_API_KEY")]>
       (<["MODEL_BASE_URL" := value_of_optional (environ !! "BLOCKETHER_LLM_API_BASE_URL")]> ∅);
     log := [EvGetenv "BLOCKETHER_LLM_API_BASE_URL"; EvGetenv "BLOCKETHER_LLM_API_KEY"] |}.

(** State after line 31, with [tail] for what the entry-point block adds
    to the log. *)
Definition built (environ : gmap string string) (tail : list event) : state :=
  {| heap :=
       [InMemoryDb;
        OpenAIChat "gpt-4o" (environ !! "BLOCKETHER_LLM_API_BASE_URL");
        Agent 1%nat 0%nat;
        AGUI 2%nat;
        AgentOS "Example app with MCP enabled" [2%nat] true [3%nat];
        App 4%nat];
     globals :=
       <["app" := VRef 5%nat]>
       (<["agent_os" := VRef 4%nat]>
       (<["conversational_agent" := VRef 2%nat]>
       (<["blockether_model" := VRef 1%nat]>
       (<["storage" := VRef 0%nat]>
       (globals (unconfigured environ))))));
     log :=
       [EvGetenv "BLOCKETHER_LLM_API_BASE_URL"; EvGetenv "BLOCKETHER_LLM_API_KEY";
        EvNew 0%nat; EvNew 1%nat; EvNew 2%nat; EvNew 3%nat; EvNew 4%nat; EvNew 5%nat]
       ++ tail |}.

(** The text handed to [int] by the entry-point block. *)
Definition port_text (environ : gmap string string) : string :=
  default "8080" (environ !! "PORT").

(** What the specification calls the objects. *)
Inductive kind : Type :=
| StorageBackend
| ModelClient
| ConversationalAgent
| Interface
| ServerApplication
| WebHandler.

Definition kind_of (o : obj) : kind :=
  match o with
  | InMemoryDb => StorageBackend
  | OpenAIChat _ _ => ModelClient
  | Agent _ _ => ConversationalAgent
  | AGUI _ => Interface
  | AgentOS _ _ _ _ => ServerApplication
  | App _ => WebHandler
  end.

(** The kinds of the objects built, in the order they were built. *)
Definition construction_order (s : state) : list kind :=
  map kind_of (constructed s).

(** The names the script binds to the objects it keeps. *)
Definition object_names : list string :=
  ["storage"; "blockether_model"; "conversational_agent"; "agent_os"; "app"].

(** The names of the variables read from the environment, in read order. *)
Fixpoint env_reads (l : list event) : list string :=
  match l with
  | EvGetenv name :: l' => name :: env_reads l'
  | _ :: l' => env_reads l'
  | [] => []
  end.

(** Texts of decimal digits and their value. *)
Fixpoint all_digits (s : string) : bool :=
  match s with
  | String c rest => bool_decide (is_Some (Py.digit c)) && all_digits rest
  | EmptyString => true
  end.

Fixpoint decimal (acc : Z) (s : string) : Z :=
  match s with
  | String c rest => decimal (10 * acc + default 0 (Py.digit c)) rest
  | EmptyString => acc
  end.


(** Texts of ASCII characters. *)
Fixpoint isascii (s : string) : bool :=
  match s with
  | String c rest => (Py.ord c <? 128) && isascii rest
  | EmptyString => true
  end.

(** ** The script in any process *)

Section Process.

(** [int] of the interpreter at hand on a string: [Some n] when the call
    returns [n], [None] when it raises ValueError.  The Unicode tables of
    the interpreter and the digit limit it was started with are part of
    it. *)
Variable int : string -> option Z.

(** What a call of uvicorn.run does once made: [None] when it returns,
    [Some what] when it raises, [what] naming the exception. *)
Variable uvicorn : ref -> string -> Z -> option string.

Variable environ : gmap string string.

(** [int(text)] *)
Definition int_call (text : string) : M Z :=
  match int text with
  | Some n => ret n
  | None => raise (IntValueError text)
  end.

(** [uvicorn.run(app, host=..., port=...)] *)
Definition uvicorn_call (app : ref) (host : string) (port : Z) : M unit :=
  emit (EvServe app host port) ;;
  match uvicorn app host port with
  | None => ret tt
  | Some what => raise (ServerError what)
  end.

(** The module body of ext/server.py, lines 13-34, for the module name
    [__name__] it is run under. *)
Definition module_body (__name__ : string) : M unit :=
  MODEL_BASE_URL <- getenv environ "BLOCKETHER_LLM_API_BASE_URL" ;;
  assign "MODEL_BASE_URL" (value_of_optional MODEL_BASE_URL) ;;
  MODEL_API_KEY <- getenv environ "BLOCKETHER_LLM_API_KEY" ;;
  assign "MODEL_API_KEY" (value_of_optional MODEL_API_KEY) ;;
  (if negb (Py.truthy MODEL_BASE_URL) then
     raise (ValueError "BLOCKETHER_LLM_API_BASE_URL environment variable is not set.")
   else ret tt) ;;
  storage <- new InMemoryDb ;;
  assign "storage" (VRef storage) ;;
  blockether_model <- new (OpenAIChat "gpt-4o" MODEL_BASE_URL) ;;
  assign "blockether_model" (VRef blockether_model) ;;
  conversational_agent <- new (Agent blockether_model storage) ;;
  assign "conversational_agent" (VRef conversational_agent) ;;
  agui <- new (AGUI conversational_agent) ;;
  agent_os <- new (AgentOS "Example app with MCP enabled"
                           [conversational_agent] true [agui]) ;;
  assign "agent_os" (VRef agent_os) ;;
  app <- new (App agent_os) ;;
  assign "app" (VRef app) ;;
  if String.eqb __name__ "__main__" then
    PORT <- environ_get environ "PORT" "8080" ;;
    port <- int_call PORT ;;
    uvicorn_call app "0.0.0.0" port
  else ret tt.

End Process.

(** Running the script from a fresh interpreter state, in a given
    process. *)
Definition run_in (int : string -> option Z)
    (uvicorn : ref -> string -> Z -> option string)
    (environ : gmap string string) (__name__ : string)
  : result unit * state :=
  module_body int uvicorn environ __name__ initial.

(** What every interpreter's [int] has in common: on an ASCII text of at
    most 640 characters it is [Py.int].  Such a text has no character for
    the Unicode tables to decide, and no more digits than any limit the
    interpreter can be started with (PYTHONINTMAXSTRDIGITS is 0, for no
    limit, or at least 640). *)
Definition agrees_on_short_ascii (int : string -> option Z) : Prop :=
  forall text,
    isascii text = true ->
    (String.length text <= 640)%nat ->
    int text = Py.int text.

(** A server whose call returns. *)
Definition returns : ref -> string -> Z -> option string :=
  fun _ _ _ => None.

(** A server that refuses, as the socket layer does, a port outside
    0..65535. *)
Definition refuses_out_of_range : ref -> string -> Z -> option string :=
  fun _ _ port =>
    if (0 <=? port) && (port <=? 65535) then None
    else Some "OverflowError".

(** ** The four ways the script can end *)

Lemma run_unconfigured (environ : gmap string string) (name : string) :
  Py.truthy (environ !! "BLOCKETHER_LLM_API_BASE_URL") = false ->
  run environ name = (Raise missing_base_url, unconfigured environ).
Proof.
  intros Hf. unfold run, server.
  cbv [bind ret raise getenv emit assign new initial heap globals log].
  rewrite Hf. reflexivity.
Qed.

Lemma run_imported (environ : gmap string string) (name : string) :
  Py.truthy (environ !! "BLOCKETHER_LLM_API_BASE_URL") = true ->
  name <> "__main__" ->
  run environ name = (Ok tt, built environ []).
Proof.
  intros Ht Hn. unfold run, server.
  cbv [bind ret raise getenv emit assign new initial heap globals log].
  rewrite Ht. apply String.eqb_neq in Hn. rewrite Hn. reflexivity.
Qed.

Lemma run_main_served (environ : gmap string string) (port : Z) :
  Py.truthy (environ !! "BLOCKETHER_LLM_API_BASE_URL") = true ->
  Py.int (port_text environ) = Some port ->
  run environ "__main__" =
    (Ok tt, built environ [EvGetenv "PORT"; EvServe 5%nat "0.0.0.0" port]).
Proof.
  intros Ht Hp. unfold run, server.
  cbv [bind ret raise getenv environ_get py_int uvicorn_run emit assign new
       initial heap globals log].
  rewrite Ht. unfold port_text in Hp. rewrite Hp. reflexivity.
Qed.

Lemma run_main_bad_port (environ : gmap string string) :
  Py.truthy (environ !! "BLOCKETHER_LLM_API_BASE_URL") = true ->
  Py.int (port_text environ) = None ->
  run environ "__main__" =
    (Raise (IntValueError (port_text environ)), built environ [EvGetenv "PORT"]).
Proof.
  intros Ht Hp. unfold run, server.
  cbv [bind ret raise getenv environ_get py_int uvicorn_run emit assign new
       initial heap globals log].
  rewrite Ht. unfold port_text in Hp |- *. rewrite Hp. reflexivity.
Qed.

Lemma truthy_set (environ : gmap string string) (name url : string) :
  environ !! name = Some url -> url <> "" -> Py.truthy (environ !! name) = true.
Proof.
  intros -> Hne. unfold Py.truthy.
  apply String.eqb_neq in Hne. now rewrite Hne.
Qed.

Lemma truthy_unset (environ : gmap string string) (name : string) :
  environ !! name = None -> Py.truthy (environ !! name) = false.
Proof. now intros ->. Qed.

Lemma truthy_empty (environ : gmap string string) (name : string) :
  environ !! name = Some "" -> Py.truthy (environ !! name) = false.
Proof. now intros ->. Qed.

(** Every run ends in one of the four ways, decided by the base URL, the
    module name and the port text. *)
Lemma run_cases (environ : gmap string string) (name : string) :
  run environ name =
    if Py.truthy (environ !! "BLOCKETHER_LLM_API_BASE_URL") then
      if String.eqb name "__main__" then
        match Py.int (port_text environ) with
        | Some port =>
            (Ok tt, built environ [EvGetenv "PORT"; EvServe 5%nat "0.0.0.0" port])
        | None =>
            (Raise (IntValueError (port_text environ)), built environ [EvGetenv "PORT"])
        end
      else (Ok tt, built environ [])
    else (Raise missing_base_url, unconfigured environ).
Proof.
  destruct (Py.truthy _) eqn:Ht; [|now apply run_unconfigured].
  destruct (String.eqb name "__main__") eqn:Hn.
  - apply String.eqb_eq in Hn. subst name.
    destruct (Py.int _) eqn:Hp; [now apply run_main_served | now apply run_main_bad_port].
  - apply String.eqb_neq in Hn. now apply run_imported.
Qed.

(** Two environments that agree on the base URL and on PORT give the same
    outcome, heap and log; the globals can differ in MODEL_API_KEY only. *)
Lemma run_agree (env1 env2 : gmap string string) (name : string) :
  env1 !! "BLOCKETHER_LLM_API_BASE_URL" = env2 !! "BLOCKETHER_LLM_API_BASE_URL" ->
  env1 !! "PORT" = env2 !! "PORT" ->
  (run env1 name).1 = (run env2 name).1 /\
  heap (run env1 name).2 = heap (run env2 name).2 /\
  log (run env1 name).2 = log (run env2 name).2 /\
  delete "MODEL_API_KEY" (globals (run env1 name).2) =
  delete "MODEL_API_KEY" (globals (run env2 name).2).
Proof.
  intros Hb Hp. rewrite !run_cases. unfold port_text. rewrite Hb, Hp.
  assert (Hg : delete "MODEL_API_KEY" (globals (unconfigured env1)) =
               delete "MODEL_API_KEY" (globals (unconfigured env2))).
  { unfold unconfigured; cbn [globals]. rewrite !delete_insert_eq, Hb. reflexivity. }
  assert (Hbuilt : forall tail,
             delete "MODEL_API_KEY" (globals (built env1 tail)) =
             delete "MODEL_API_KEY" (globals (built env2 tail))).
  { intros tail. unfold built; cbn [globals].
    rewrite !(delete_insert_ne _ "MODEL_API_KEY") by discriminate.
    rewrite Hg. reflexivity. }
  destruct (Py.truthy _); [|repeat split; assumption].
  destruct (String.eqb _ _); [destruct (Py.int _)|];
    (repeat split; [cbn [snd heap built]; rewrite Hb; reflexivity | apply Hbuilt]).
Qed.

Lemma serve_calls_complete (l : list event) (app : ref) (host : string) (port : Z) :
  EvServe app host port ∈ l <-> (app, host, port) ∈ serve_calls l.
Proof.
  induction l as [|e l IH]; [cbn; rewrite !elem_of_nil; tauto|].
  rewrite elem_of_cons, IH.
  destruct e as [n|r|a h p]; cbn [serve_calls]; rewrite ?elem_of_cons.
  - split; [intros [H|H]; [discriminate|exact H] | intros H; right; exact H].
  - split; [intros [H|H]; [discriminate|exact H] | intros H; right; exact H].
  - split; (intros [H|H]; [left; congruence | right; exact H]).
Qed.

(** The same four ways in any process, the served run ending as the call
    of uvicorn.run does. *)
Lemma run_in_cases (int : string -> option Z)
    (uvicorn : ref -> string -> Z -> option string)
    (environ : gmap string string) (name : string) :
  run_in int uvicorn environ name =
    if Py.truthy (environ !! "BLOCKETHER_LLM_API_BASE_URL") then
      if String.eqb name "__main__" then
        match int (port_text environ) with
        | Some port =>
            (match uvicorn 5%nat "0.0.0.0" port with
             | None => Ok tt
             | Some what => Raise (ServerError what)
             end,
             built environ [EvGetenv "PORT"; EvServe 5%nat "0.0.0.0" port])
        | None =>
            (Raise (IntValueError (port_text environ)), built environ [EvGetenv "PORT"])
        end
      else (Ok tt, built environ [])
    else (Raise missing_base_url, unconfigured environ).
Proof.
  unfold run_in, module_body, port_text.
  cbv [bind ret raise getenv environ_get int_call uvicorn_call emit assign new
       initial heap globals log Datatypes.length Datatypes.app negb].
  destruct (Py.truthy _); [|reflexivity].
  destruct (String.eqb _ _); [|reflexivity].
  destruct (int _); [|reflexivity].
  destruct (uvicorn _ _ _); reflexivity.
Qed.

(** [run] is the run in the process whose [int] is [Py.int] and whose
    server returns. *)
Lemma run_reference (environ : gmap string string) (name : string) :
  run environ name = run_in Py.int returns environ name.
Proof.
  rewrite run_cases, run_in_cases.
  destruct (Py.truthy _); [|reflexivity].
  destruct (String.eqb _ _); [|reflexivity].
  destruct (Py.int _); reflexivity.
Qed.

Lemma run_in_configured_state (int : string -> option Z)
    (uvicorn : ref -> string -> Z -> option string)
    (environ : gmap string string) (name : string) :
  Py.truthy (environ !! "BLOCKETHER_LLM_API_BASE_URL") = true ->
  exists tail,
    (run_in int uvicorn environ name).2 = built environ tail /\
    new_calls tail = [].
Proof.
  intros Ht. rewrite run_in_cases, Ht.
  destruct (String.eqb _ _); [destruct (int _)|]; eexists; split; reflexivity.
Qed.

Lemma py_int_agrees : agrees_on_short_ascii Py.int.
Proof. intros text _ _. reflexivity. Qed.

(** ** Missing configuration *)

(** C1: in every environment where BLOCKETHER_LLM_API_BASE_URL is unset,
    the script ends with the ValueError it raises itself, the message of that
    error contains the name of the variable, and uvicorn.run was not
    called.  This holds under every module name. *)
Theorem unset_base_url_fails (environ : gmap string string) (name : string) :
  environ !! "BLOCKETHER_LLM_API_BASE_URL" = None ->
  exists msg,
    (run environ name).1 = Raise (ValueError msg) /\
    Py.contains "BLOCKETHER_LLM_API_BASE_URL" msg = true /\
    serve_calls (log (run environ name).2) = [].
Proof.
  intros Hu. rewrite (run_unconfigured environ name (truthy_unset _ _ Hu)).
  eexists. split; [reflexivity|]. split; reflexivity.
Qed.

Lemma unset_base_url_fails_witness :
  exists msg,
    (run ∅ "__main__").1 = Raise (ValueError msg) /\
    Py.contains "BLOCKETHER_LLM_API_BASE_URL" msg = true /\
    serve_calls (log (run ∅ "__main__").2) = [].
Proof. apply (unset_base_url_fails ∅ "__main__"). reflexivity. Defined.

(** C7: when BLOCKETHER_LLM_API_BASE_URL is missing, the run ends with the
    configuration error in a state where the heap is empty, no constructor
    and no uvicorn.run call is in the log, and none of the names storage,
    blockether_model, conversational_agent, agent_os, app is bound. *)
Theorem nothing_built_before_config_error
    (environ : gmap string string) (name : string) :
  environ !! "BLOCKETHER_LLM_API_BASE_URL" = None ->
  (run environ name).1 = Raise missing_base_url /\
  heap (run environ name).2 = [] /\
  constructed (run environ name).2 = [] /\
  new_calls (log (run environ name).2) = [] /\
  serve_calls (log (run environ name).2) = [] /\
  Forall (fun n => globals (run environ name).2 !! n = None) object_names.
Proof.
  intros Hu. rewrite (run_unconfigured environ name (truthy_unset _ _ Hu)).
  repeat (split; [reflexivity|]).
  unfold object_names, unconfigured; cbn [snd globals].
  repeat constructor;
    rewrite !lookup_insert_ne by discriminate; apply lookup_empty.
Qed.

Lemma nothing_built_before_config_error_witness :
  (run ∅ "__main__").1 = Raise missing_base_url /\
  heap (run ∅ "__main__").2 = [] /\
  constructed (run ∅ "__main__").2 = [] /\
  new_calls (log (run ∅ "__main__").2) = [] /\
  serve_calls (log (run ∅ "__main__").2) = [] /\
  Forall (fun n => globals (run ∅ "__main__").2 !! n = None) object_names.
Proof.
  apply (nothing_built_before_config_error ∅ "__main__"). reflexivity.
Defined.

(** C8: in every environment where BLOCKETHER_LLM_API_BASE_URL is the empty
    string the run ends with the configuration error, and outcome, heap
    and log are those of the same environment with the variable removed. *)
Theorem empty_base_url_is_unset (environ : gmap string string) (name : string) :
  environ !! "BLOCKETHER_LLM_API_BASE_URL" = Some "" ->
  (run environ name).1 = Raise missing_base_url /\
  (run environ name).1 = (run (delete "BLOCKETHER_LLM_API_BASE_URL" environ) name).1 /\
  heap (run environ name).2 =
    heap (run (delete "BLOCKETHER_LLM_API_BASE_URL" environ) name).2 /\
  log (run environ name).2 =
    log (run (delete "BLOCKETHER_LLM_API_BASE_URL" environ) name).2.
Proof.
  intros He.
  rewrite (run_unconfigured environ name (truthy_empty _ _ He)).
  rewrite (run_unconfigured (delete _ environ) name
             (truthy_unset _ _ (lookup_delete_eq environ _))).
  repeat split.
Qed.

Lemma empty_base_url_is_unset_witness :
  let environ : gmap string string := {["BLOCKETHER_LLM_API_BASE_URL" := ""]} in
  (run environ "__main__").1 = Raise missing_base_url /\
  (run environ "__main__").1 =
    (run (delete "BLOCKETHER_LLM_API_BASE_URL" environ) "__main__").1 /\
  heap (run environ "__main__").2 =
    heap (run (delete "BLOCKETHER_LLM_API_BASE_URL" environ) "__main__").2 /\
  log (run environ "__main__").2 =
    log (run (delete "BLOCKETHER_LLM_API_BASE_URL" environ) "__main__").2.
Proof.
  apply (empty_base_url_is_unset {["BLOCKETHER_LLM_API_BASE_URL" := ""]} "__main__").
  reflexivity.
Defined.

(** ** The entry-point guard *)

(** C3: under any module name other than "__main__" (the script imported
    as a library) the log of the run holds no call of uvicorn.run, in every
    environment. *)
Theorem import_never_serves (environ : gmap string string) (name : string) :
  name <> "__main__" ->
  serve_calls (log (run environ name).2) = [] /\
  forall app host port, EvServe app host port ∉ log (run environ name).2.
Proof.
  intros Hn.
  assert (Hs : serve_calls (log (run environ name).2) = []).
  { rewrite run_cases. apply String.eqb_neq in Hn. rewrite Hn.
    now destruct (Py.truthy _). }
  split; [exact Hs|].
  intros app host port Hin. apply serve_calls_complete in Hin.
  rewrite Hs in Hin. now apply elem_of_nil in Hin.
Qed.

Lemma import_never_serves_witness :
  let environ : gmap string string :=
    {["BLOCKETHER_LLM_API_BASE_URL" := "http://x"]} in
  serve_calls (log (run environ "server").2) = [] /\
  forall app host port, EvServe app host port ∉ log (run environ "server").2.
Proof.
  apply (import_never_serves {["BLOCKETHER_LLM_API_BASE_URL" := "http://x"]} "server").
  discriminate.
Defined.

(** ** Serving *)

Lemma port_conversion (int : string -> option Z)
    (environ : gmap string string) (port : Z) :
  agrees_on_short_ascii int ->
  match environ !! "PORT" with
  | Some text => int text = Some port
  | None => port = 8080
  end ->
  int (port_text environ) = Some port.
Proof.
  intros Hint. unfold port_text. destruct (environ !! "PORT"); cbn [default from_option id].
  - trivial.
  - intros ->. rewrite Hint; [reflexivity | reflexivity | cbn; lia].
Qed.

(** C2, as stated, fails at two inputs.  With the base URL set to the empty
    string and PORT unset, the main run ends with the configuration error
    and binds nothing, port 8080 included.  With a base URL and PORT=abc,
    the main run binds no port at all. *)
Lemma set_base_url_serves_counterexample :
  let empty_url : gmap string string := {["BLOCKETHER_LLM_API_BASE_URL" := ""]} in
  let bad_port : gmap string string :=
    <["PORT" := "abc"]> {["BLOCKETHER_LLM_API_BASE_URL" := "http://x"]} in
  (is_Some (empty_url !! "BLOCKETHER_LLM_API_BASE_URL") /\
   empty_url !! "PORT" = None /\
   ~ exists app, (app, "0.0.0.0", 8080) ∈ serve_calls (log (run empty_url "__main__").2)) /\
  (is_Some (bad_port !! "BLOCKETHER_LLM_API_BASE_URL") /\
   bad_port !! "PORT" = Some "abc" /\
   ~ exists app port, (app, "0.0.0.0", port) ∈ serve_calls (log (run bad_port "__main__").2)).
Proof.
  cbv zeta. split; (split; [eexists; reflexivity|]); (split; [reflexivity|]).
  - intros [app H]. vm_compute in H. now apply elem_of_nil in H.
  - intros (app & port & H). vm_compute in H. now apply elem_of_nil in H.
Qed.

(** C2, amended: with BLOCKETHER_LLM_API_BASE_URL set to a non-empty string,
    and [port] the value [int] gives for the text of PORT when PORT is set,
    or 8080 when PORT is unset, the main run calls uvicorn.run exactly once,
    with the object bound to [app], host 0.0.0.0 and that port.  This holds
    in every process: [int] is the conversion of the interpreter at hand,
    of which only its agreement with [Py.int] on short ASCII text is used
    (for the text 8080), and nothing is assumed of what uvicorn.run does
    once called. *)
Theorem configured_main_serves
    (int : string -> option Z) (uvicorn : ref -> string -> Z -> option string)
    (environ : gmap string string) (url : string) (port : Z) :
  agrees_on_short_ascii int ->
  environ !! "BLOCKETHER_LLM_API_BASE_URL" = Some url ->
  url <> "" ->
  match environ !! "PORT" with
  | Some text => int text = Some port
  | None => port = 8080
  end ->
  exists app,
    globals (run_in int uvicorn environ "__main__").2 !! "app" = Some (VRef app) /\
    serve_calls (log (run_in int uvicorn environ "__main__").2) =
      [(app, "0.0.0.0", port)].
Proof.
  intros Hint Hb Hne Hp.
  rewrite run_in_cases, (truthy_set _ _ _ Hb Hne), (port_conversion int _ _ Hint Hp).
  exists 5%nat. split; [|reflexivity].
  unfold built; cbn [snd globals]. apply lookup_insert_eq.
Qed.

Lemma configured_main_serves_witness :
  let environ : gmap string string :=
    <["PORT" := "9090"]> {["BLOCKETHER_LLM_API_BASE_URL" := "http://x"]} in
  exists app,
    globals (run_in Py.int refuses_out_of_range environ "__main__").2 !! "app" =
      Some (VRef app) /\
    serve_calls (log (run_in Py.int refuses_out_of_range environ "__main__").2) =
      [(app, "0.0.0.0", 9090)].
Proof.
  apply (configured_main_serves Py.int refuses_out_of_range
           (<["PORT" := "9090"]> {["BLOCKETHER_LLM_API_BASE_URL" := "http://x"]})
           "http://x" 9090).
  - intros text _ _. reflexivity.
  - reflexivity.
  - discriminate.
  - reflexivity.
Defined.

(** C9, as stated, fails where the base URL is missing: with PORT=abc and
    no BLOCKETHER_LLM_API_BASE_URL the main run ends with the configuration
    error, not with an error of the port conversion. *)
Lemma bad_port_counterexample :
  let environ : gmap string string := {["PORT" := "abc"]} in
  environ !! "PORT" = Some "abc" /\
  Py.int "abc" = None /\
  (run environ "__main__").1 = Raise missing_base_url /\
  forall text, (run environ "__main__").1 <> Raise (IntValueError text).
Proof.
  cbv zeta. repeat (split; [reflexivity|]).
  intros text H. vm_compute in H. discriminate H.
Qed.

(** C9, amended: with BLOCKETHER_LLM_API_BASE_URL set to a non-empty string
    and PORT set to a text that [int] rejects, the main run ends with the
    ValueError of [int] on that text, and uvicorn.run is not called, on port
    8080 or any other.  [int] is the conversion of the interpreter at hand,
    whatever texts it accepts. *)
Theorem bad_port_fails
    (int : string -> option Z) (uvicorn : ref -> string -> Z -> option string)
    (environ : gmap string string) (url text : string) :
  environ !! "BLOCKETHER_LLM_API_BASE_URL" = Some url ->
  url <> "" ->
  environ !! "PORT" = Some text ->
  int text = None ->
  (run_in int uvicorn environ "__main__").1 = Raise (IntValueError text) /\
  serve_calls (log (run_in int uvicorn environ "__main__").2) = [].
Proof.
  intros Hb Hne Hp Hi.
  assert (Ht : port_text environ = text) by (unfold port_text; now rewrite Hp).
  rewrite run_in_cases, (truthy_set _ _ _ Hb Hne), Ht, Hi.
  split; reflexivity.
Qed.

Lemma bad_port_fails_witness :
  let environ : gmap string string :=
    <["PORT" := "80.5"]> {["BLOCKETHER_LLM_API_BASE_URL" := "http://x"]} in
  (run_in Py.int returns environ "__main__").1 = Raise (IntValueError "80.5") /\
  serve_calls (log (run_in Py.int returns environ "__main__").2) = [].
Proof.
  apply (bad_port_fails Py.int returns
           (<["PORT" := "80.5"]> {["BLOCKETHER_LLM_API_BASE_URL" := "http://x"]})
           "http://x" "80.5").
  - reflexivity.
  - discriminate.
  - reflexivity.
  - reflexivity.
Defined.

(** ** Construction *)

Lemma constructed_built (environ : gmap string string) (tail : list event) :
  new_calls tail = [] ->
  constructed (built environ tail) = heap (built environ tail).
Proof.
  intros Ht. unfold constructed.
  assert (Hn : new_calls (log (built environ tail)) =
               [0; 1; 2; 3; 4; 5]%nat) by (cbn; now rewrite Ht).
  rewrite Hn. reflexivity.
Qed.

(** C4, as stated, fails: in a run that ends normally the objects built
    are not the five the claim lists, because an AGUI interface object is
    built between the agent and the server application. *)
Lemma construction_order_counterexample :
  let environ : gmap string string :=
    {["BLOCKETHER_LLM_API_BASE_URL" := "http://x"]} in
  (run environ "server").1 = Ok tt /\
  construction_order (run environ "server").2 <>
    [StorageBackend; ModelClient; ConversationalAgent; ServerApplication; WebHandler].
Proof.
  cbv zeta. split; [reflexivity|]. vm_compute. discriminate.
Qed.

(** C4, amended: in every run that ends normally, in any process, the
    objects built are exactly these six, in this order: the in-memory
    storage backend; the chat-model client, for the base URL read; the
    conversational agent, for that client and that storage; an AGUI
    interface object, for that agent; the server-application object, listing
    that agent and that interface, with the protocol-server flag on; and the
    web handler of that server-application object. *)
Theorem construction_order_on_success
    (int : string -> option Z) (uvicorn : ref -> string -> Z -> option string)
    (environ : gmap string string) (name : string) :
  (run_in int uvicorn environ name).1 = Ok tt ->
  exists storage model agent agui agent_os app,
    new_calls (log (run_in int uvicorn environ name).2) =
      [storage; model; agent; agui; agent_os; app] /\
    constructed (run_in int uvicorn environ name).2 =
      [InMemoryDb;
       OpenAIChat "gpt-4o" (environ !! "BLOCKETHER_LLM_API_BASE_URL");
       Agent model storage;
       AGUI agent;
       AgentOS "Example app with MCP enabled" [agent] true [agui];
       App agent_os] /\
    heap (run_in int uvicorn environ name).2 !! storage = Some InMemoryDb /\
    heap (run_in int uvicorn environ name).2 !! model =
      Some (OpenAIChat "gpt-4o" (environ !! "BLOCKETHER_LLM_API_BASE_URL")) /\
    heap (run_in int uvicorn environ name).2 !! agent = Some (Agent model storage) /\
    heap (run_in int uvicorn environ name).2 !! agui = Some (AGUI agent) /\
    heap (run_in int uvicorn environ name).2 !! agent_os =
      Some (AgentOS "Example app with MCP enabled" [agent] true [agui]) /\
    heap (run_in int uvicorn environ name).2 !! app = Some (App agent_os) /\
    construction_order (run_in int uvicorn environ name).2 =
      [StorageBackend; ModelClient; ConversationalAgent; Interface;
       ServerApplication; WebHandler].
Proof.
  intros Hok.
  assert (Ht : Py.truthy (environ !! "BLOCKETHER_LLM_API_BASE_URL") = true).
  { rewrite run_in_cases in Hok. now destruct (Py.truthy _). }
  destruct (run_in_configured_state int uvicorn environ name Ht) as (tail & -> & Hn).
  exists 0%nat, 1%nat, 2%nat, 3%nat, 4%nat, 5%nat.
  unfold construction_order. rewrite (constructed_built environ tail Hn).
  split; [cbn; now rewrite Hn|]. repeat split.
Qed.

Lemma construction_order_on_success_witness :
  let environ : gmap string string :=
    {["BLOCKETHER_LLM_API_BASE_URL" := "http://x"]} in
  exists storage model agent agui agent_os app,
    new_calls (log (run_in Py.int returns environ "__main__").2) =
      [storage; model; agent; agui; agent_os; app] /\
    constructed (run_in Py.int returns environ "__main__").2 =
      [InMemoryDb;
       OpenAIChat "gpt-4o" (environ !! "BLOCKETHER_LLM_API_BASE_URL");
       Agent model storage;
       AGUI agent;
       AgentOS "Example app with MCP enabled" [agent] true [agui];
       App agent_os] /\
    heap (run_in Py.int returns environ "__main__").2 !! storage = Some InMemoryDb /\
    heap (run_in Py.int returns environ "__main__").2 !! model =
      Some (OpenAIChat "gpt-4o" (environ !! "BLOCKETHER_LLM_API_BASE_URL")) /\
    heap (run_in Py.int returns environ "__main__").2 !! agent =
      Some (Agent model storage) /\
    heap (run_in Py.int returns environ "__main__").2 !! agui = Some (AGUI agent) /\
    heap (run_in Py.int returns environ "__main__").2 !! agent_os =
      Some (AgentOS "Example app with MCP enabled" [agent] true [agui]) /\
    heap (run_in Py.int returns environ "__main__").2 !! app = Some (App agent_os) /\
    construction_order (run_in Py.int returns environ "__main__").2 =
      [StorageBackend; ModelClient; ConversationalAgent; Interface;
       ServerApplication; WebHandler].
Proof.
  apply (construction_order_on_success Py.int returns
           {["BLOCKETHER_LLM_API_BASE_URL" := "http://x"]} "__main__").
  reflexivity.
Defined.

Lemma run_configured_state (environ : gmap string string) (name : string) :
  Py.truthy (environ !! "BLOCKETHER_LLM_API_BASE_URL") = true ->
  exists tail, (run environ name).2 = built environ tail /\ new_calls tail = [].
Proof.
  intros Ht. rewrite run_cases, Ht.
  destruct (String.eqb _ _); [destruct (Py.int _)|]; eexists; split; reflexivity.
Qed.

(** C5: whenever BLOCKETHER_LLM_API_BASE_URL is set to a non-empty string
    [url], the object bound to blockether_model is an OpenAIChat whose
    base_url is [url]; the object bound to conversational_agent is an Agent
    whose model is that client and whose db is the InMemoryDb bound to
    storage; and the object bound to agent_os is an AgentOS whose agents are
    that agent alone and whose enable_mcp_server is true. *)
Theorem objects_wired (environ : gmap string string) (name url : string) :
  environ !! "BLOCKETHER_LLM_API_BASE_URL" = Some url ->
  url <> "" ->
  exists storage model agent agent_os description interfaces,
    globals (run environ name).2 !! "storage" = Some (VRef storage) /\
    heap (run environ name).2 !! storage = Some InMemoryDb /\
    globals (run environ name).2 !! "blockether_model" = Some (VRef model) /\
    heap (run environ name).2 !! model = Some (OpenAIChat "gpt-4o" (Some url)) /\
    globals (run environ name).2 !! "conversational_agent" = Some (VRef agent) /\
    heap (run environ name).2 !! agent = Some (Agent model storage) /\
    globals (run environ name).2 !! "agent_os" = Some (VRef agent_os) /\
    heap (run environ name).2 !! agent_os =
      Some (AgentOS description [agent] true interfaces).
Proof.
  intros Hb Hne.
  destruct (run_configured_state environ name (truthy_set _ _ _ Hb Hne))
    as (tail & -> & _).
  exists 0%nat, 1%nat, 2%nat, 4%nat. do 2 eexists.
  unfold built; cbn [globals heap]. rewrite Hb.
  repeat split;
    first [ reflexivity
          | rewrite !lookup_insert_ne by discriminate; apply lookup_insert_eq ].
Qed.

Lemma objects_wired_witness :
  let environ : gmap string string :=
    {["BLOCKETHER_LLM_API_BASE_URL" := "http://x"]} in
  exists storage model agent agent_os description interfaces,
    globals (run environ "server").2 !! "storage" = Some (VRef storage) /\
    heap (run environ "server").2 !! storage = Some InMemoryDb /\
    globals (run environ "server").2 !! "blockether_model" = Some (VRef model) /\
    heap (run environ "server").2 !! model = Some (OpenAIChat "gpt-4o" (Some "http://x")) /\
    globals (run environ "server").2 !! "conversational_agent" = Some (VRef agent) /\
    heap (run environ "server").2 !! agent = Some (Agent model storage) /\
    globals (run environ "server").2 !! "agent_os" = Some (VRef agent_os) /\
    heap (run environ "server").2 !! agent_os =
      Some (AgentOS description [agent] true interfaces).
Proof.
  apply (objects_wired {["BLOCKETHER_LLM_API_BASE_URL" := "http://x"]}
           "server" "http://x").
  - reflexivity.
  - discriminate.
Defined.

(** ** The API key *)




(** C10: two environments that agree on every variable other than
    BLOCKETHER_LLM_API_KEY give runs with the same outcome, the same heap,
    the same objects built, the same log and the same calls of uvicorn.run;
    the module-level bindings agree on every name other than
    MODEL_API_KEY.  No object on the heap and no argument of uvicorn.run
    depends on the key. *)
Theorem api_key_does_not_matter (env1 env2 : gmap string string) (name : string) :
  (forall k, k <> "BLOCKETHER_LLM_API_KEY" -> env1 !! k = env2 !! k) ->
  (run env1 name).1 = (run env2 name).1 /\
  heap (run env1 name).2 = heap (run env2 name).2 /\
  constructed (run env1 name).2 = constructed (run env2 name).2 /\
  log (run env1 name).2 = log (run env2 name).2 /\
  serve_calls (log (run env1 name).2) = serve_calls (log (run env2 name).2) /\
  delete "MODEL_API_KEY" (globals (run env1 name).2) =
  delete "MODEL_API_KEY" (globals (run env2 name).2).
Proof.
  intros Hsame.
  destruct (run_agree env1 env2 name) as (Hr & Hh & Hl & Hg);
    [apply Hsame; discriminate | apply Hsame; discriminate |].
  unfold constructed. rewrite Hr, Hh, Hl, Hg. repeat split.
Qed.

Lemma api_key_does_not_matter_witness :
  let env2 : gmap string string :=
    {["BLOCKETHER_LLM_API_BASE_URL" := "http://x"]} in
  let env1 : gmap string string := <["BLOCKETHER_LLM_API_KEY" := "sk-1"]> env2 in
  (run env1 "__main__").1 = (run env2 "__main__").1 /\
  heap (run env1 "__main__").2 = heap (run env2 "__main__").2 /\
  constructed (run env1 "__main__").2 = constructed (run env2 "__main__").2 /\
  log (run env1 "__main__").2 = log (run env2 "__main__").2 /\
  serve_calls (log (run env1 "__main__").2) = serve_calls (log (run env2 "__main__").2) /\
  delete "MODEL_API_KEY" (globals (run env1 "__main__").2) =
  delete "MODEL_API_KEY" (globals (run env2 "__main__").2).
Proof.
  apply (api_key_does_not_matter
           (<["BLOCKETHER_LLM_API_KEY" := "sk-1"]>
              {["BLOCKETHER_LLM_API_BASE_URL" := "http://x"]})
           {["BLOCKETHER_LLM_API_BASE_URL" := "http://x"]} "__main__").
  intros k Hk. apply lookup_insert_ne. congruence.
Defined.

(** ** Checks on concrete inputs *)

Example int_9090 : Py.int "9090" = Some 9090.
Proof. reflexivity. Qed.

Example int_spaces_sign : Py.int "  -8_0 " = Some (-80).
Proof. reflexivity. Qed.

Example int_abc : Py.int "abc" = None.
Proof. reflexivity. Qed.

Example int_empty : Py.int "" = None.
Proof. reflexivity. Qed.

Example int_double_underscore : Py.int "1__0" = None.
Proof. reflexivity. Qed.

Example int_float_text : Py.int "80.5" = None.
Proof. reflexivity. Qed.

(** The spec's testable properties, run. *)
Example default_port_8080 :
  serve_calls (log (run {["BLOCKETHER_LLM_API_BASE_URL" := "http://x"]} "__main__").2) =
    [(5%nat, "0.0.0.0", 8080)].
Proof. reflexivity. Qed.

Example port_9090 :
  serve_calls
    (log (run (<["PORT" := "9090"]> {["BLOCKETHER_LLM_API_BASE_URL" := "http://x"]})
              "__main__").2) =
    [(5%nat, "0.0.0.0", 9090)].
Proof. reflexivity. Qed.

Example unset_base_url :
  run ∅ "__main__" = (Raise missing_base_url, unconfigured ∅).
Proof. reflexivity. Qed.

Example imported_heap :
  heap (run {["BLOCKETHER_LLM_API_BASE_URL" := "http://x"]} "server").2 =
    [InMemoryDb; OpenAIChat "gpt-4o" (Some "http://x"); Agent 1%nat 0%nat;
     AGUI 2%nat; AgentOS "Example app with MCP enabled" [2%nat] true [3%nat];
     App 4%nat].
Proof. reflexivity. Qed.

(** ** Further properties of the module body *)

Lemma truthy_iff (v : option string) :
  Py.truthy v = true <-> exists url, v = Some url /\ url <> "".
Proof.
  destruct v as [url|]; cbn.
  - rewrite negb_true_iff, String.eqb_neq. split.
    + intros H. now exists url.
    + now intros (u & [= ->] & H).
  - split; [discriminate | now intros (u & H & _)].
Qed.

Lemma falsy_iff (v : option string) :
  Py.truthy v = false <-> v = None \/ v = Some "".
Proof.
  destruct v as [url|]; cbn.
  - rewrite negb_false_iff, String.eqb_eq. split.
    + intros ->. now right.
    + now intros [H|[= ->]].
  - split; [now left | reflexivity].
Qed.

(** X1 (lines 15-16).  The configuration error is raised exactly when
    BLOCKETHER_LLM_API_BASE_URL is unset or set to the empty string: in no
    other environment does a run end with it. *)
Theorem config_error_iff (environ : gmap string string) (name : string) :
  (run environ name).1 = Raise missing_base_url <->
  environ !! "BLOCKETHER_LLM_API_BASE_URL" = None \/
  environ !! "BLOCKETHER_LLM_API_BASE_URL" = Some "".
Proof.
  rewrite <- falsy_iff, run_cases.
  destruct (Py.truthy _); [|tauto].
  destruct (String.eqb _ _); [destruct (Py.int _)|]; split; discriminate.
Qed.

(** X2 (lines 15-34).  In any process, a run returns normally exactly when
    the base URL is set to a non-empty string and either the module is not
    run as "__main__" or uvicorn.run was called and that call returned. *)
Theorem success_iff
    (int : string -> option Z) (uvicorn : ref -> string -> Z -> option string)
    (environ : gmap string string) (name : string) :
  (run_in int uvicorn environ name).1 = Ok tt <->
  (exists url, environ !! "BLOCKETHER_LLM_API_BASE_URL" = Some url /\ url <> "") /\
  (name <> "__main__" \/
   exists app host port,
     (app, host, port) ∈ serve_calls (log (run_in int uvicorn environ name).2) /\
     uvicorn app host port = None).
Proof.
  rewrite <- truthy_iff, run_in_cases.
  destruct (Py.truthy _); [|split; [discriminate | now intros [? _]]].
  destruct (String.eqb name "__main__") eqn:Hn.
  - apply String.eqb_eq in Hn.
    destruct (int _) as [port|]; [destruct (uvicorn _ _ _) as [what|] eqn:Hu|].
    + split; [discriminate|].
      intros [_ [H|(a & h & p & Hin & Hret)]]; [contradiction|].
      cbn in Hin. apply list_elem_of_singleton in Hin. injection Hin as -> -> ->.
      congruence.
    + split; [intros _|reflexivity]. split; [reflexivity|]. right.
      exists 5%nat, "0.0.0.0", port. split; [|exact Hu].
      cbn. now apply list_elem_of_singleton.
    + split; [discriminate|].
      intros [_ [H|(a & h & p & Hin & _)]]; [contradiction|].
      cbn in Hin. now apply elem_of_nil in Hin.
  - apply String.eqb_neq in Hn.
    split; [intros _; split; [reflexivity | now left] | reflexivity].
Qed.

(** X3 (lines 33-34).  In any process, uvicorn.run is called exactly when
    the base URL is set to a non-empty string, the module name is
    "__main__" and [int] of the interpreter at hand accepts the port text
    (the value of PORT, or 8080 when PORT is unset). *)
Theorem serves_iff
    (int : string -> option Z) (uvicorn : ref -> string -> Z -> option string)
    (environ : gmap string string) (name : string) :
  serve_calls (log (run_in int uvicorn environ name).2) <> [] <->
  (exists url, environ !! "BLOCKETHER_LLM_API_BASE_URL" = Some url /\ url <> "") /\
  name = "__main__" /\
  is_Some (int (port_text environ)).
Proof.
  rewrite <- truthy_iff, run_in_cases.
  destruct (Py.truthy _); [|split; [now intros H | now intros [? _]]].
  destruct (String.eqb name "__main__") eqn:Hn.
  - apply String.eqb_eq in Hn. destruct (int _) as [port|].
    + split; [intros _; repeat split; [exact Hn | now exists port] | intros _; discriminate].
    + split; [now intros H | intros (_ & _ & [x H]); discriminate].
  - apply String.eqb_neq in Hn. split; [now intros H | now intros (_ & H & _)].
Qed.

(** The shape of the final state, whatever the outcome. *)
Lemma run_state (environ : gmap string string) (name : string) :
  (Py.truthy (environ !! "BLOCKETHER_LLM_API_BASE_URL") = false /\
   (run environ name).2 = unconfigured environ) \/
  (Py.truthy (environ !! "BLOCKETHER_LLM_API_BASE_URL") = true /\
   ((run environ name).2 = built environ [] \/
    (run environ name).2 = built environ [EvGetenv "PORT"] \/
    exists port,
      (run environ name).2 =
        built environ [EvGetenv "PORT"; EvServe 5%nat "0.0.0.0" port])).
Proof.
  rewrite run_cases. destruct (Py.truthy _); [right|left]; split; try reflexivity.
  destruct (String.eqb _ _); [destruct (Py.int _) as [port|]|]; cbn [snd]; eauto.
Qed.

(** X4 (lines 31-34).  In every run, uvicorn.run is called at most once, and a
    call it receives has host 0.0.0.0 and, as application, the object bound
    to [app], which is the handler that [get_app] returned for the AgentOS
    bound to [agent_os]. *)
Theorem served_app_is_handler (environ : gmap string string) (name : string) :
  (length (serve_calls (log (run environ name).2)) <= 1)%nat /\
  forall app host port,
    EvServe app host port ∈ log (run environ name).2 ->
    host = "0.0.0.0" /\
    globals (run environ name).2 !! "app" = Some (VRef app) /\
    exists agent_os,
      heap (run environ name).2 !! app = Some (App agent_os) /\
      globals (run environ name).2 !! "agent_os" = Some (VRef agent_os).
Proof.
  destruct (run_state environ name) as [[_ ->]|[_ [->|[->|[p ->]]]]];
    (split; [cbn; lia|]); intros app host port Hin;
    apply serve_calls_complete in Hin; cbn in Hin;
    try (now apply elem_of_nil in Hin).
  apply list_elem_of_singleton in Hin. injection Hin as -> -> ->.
  split; [reflexivity|]. split; [apply lookup_insert_eq|].
  exists 4%nat. split; [reflexivity|].
  unfold built; cbn [globals].
  rewrite lookup_insert_ne by discriminate. apply lookup_insert_eq.
Qed.

(** X6 (lines 13-14 and 34).  The script reads BLOCKETHER_LLM_API_BASE_URL, then
    BLOCKETHER_LLM_API_KEY, and then PORT only in a run as "__main__" that
    passed the configuration check; it reads no other variable, and reads
    none twice. *)
Theorem environment_reads (environ : gmap string string) (name : string) :
  env_reads (log (run environ name).2) =
    "BLOCKETHER_LLM_API_BASE_URL" :: "BLOCKETHER_LLM_API_KEY" ::
    (if Py.truthy (environ !! "BLOCKETHER_LLM_API_BASE_URL")
        && String.eqb name "__main__"
     then ["PORT"] else []).
Proof.
  rewrite run_cases.
  destruct (Py.truthy _); [|reflexivity].
  destruct (String.eqb _ _); [destruct (Py.int _)|]; reflexivity.
Qed.

Lemma value_of_optional_not_ref (v : option string) (r : ref) :
  value_of_optional v <> VRef r.
Proof. destruct v; discriminate. Qed.

(** X8 (lines 24-31).  Whenever the base URL is set to a non-empty string, the
    AgentOS bound to [agent_os] has exactly one interface, an AGUI built for
    the very agent the AgentOS lists; that AGUI is bound to no module-level
    name; and [app] is bound to the handler [get_app] returned for that
    AgentOS.  This holds on import and in a main run, a main run that ends
    with the port error included. *)
Theorem interface_and_handler_wired
    (environ : gmap string string) (name url : string) :
  environ !! "BLOCKETHER_LLM_API_BASE_URL" = Some url ->
  url <> "" ->
  exists agent agui agent_os app description,
    globals (run environ name).2 !! "conversational_agent" = Some (VRef agent) /\
    globals (run environ name).2 !! "agent_os" = Some (VRef agent_os) /\
    globals (run environ name).2 !! "app" = Some (VRef app) /\
    heap (run environ name).2 !! agent_os =
      Some (AgentOS description [agent] true [agui]) /\
    heap (run environ name).2 !! agui = Some (AGUI agent) /\
    heap (run environ name).2 !! app = Some (App agent_os) /\
    map_Forall (fun _ v => v <> VRef agui) (globals (run environ name).2).
Proof.
  intros Hb Hne.
  destruct (run_configured_state environ name (truthy_set _ _ _ Hb Hne))
    as (tail & -> & _).
  exists 2%nat, 3%nat, 4%nat, 5%nat. eexists.
  unfold built; cbn [globals heap].
  do 3 (split; [rewrite ?lookup_insert_ne by discriminate; apply lookup_insert_eq|]).
  do 3 (split; [reflexivity|]).
  do 5 (apply map_Forall_insert_2; [cbv beta; discriminate|]).
  unfold unconfigured; cbn [globals].
  do 2 (apply map_Forall_insert_2; [apply value_of_optional_not_ref|]).
  apply map_Forall_empty.
Qed.

Lemma interface_and_handler_wired_witness :
  let environ : gmap string string :=
    {["BLOCKETHER_LLM_API_BASE_URL" := "http://x"]} in
  exists agent agui agent_os app description,
    globals (run environ "server").2 !! "conversational_agent" = Some (VRef agent) /\
    globals (run environ "server").2 !! "agent_os" = Some (VRef agent_os) /\
    globals (run environ "server").2 !! "app" = Some (VRef app) /\
    heap (run environ "server").2 !! agent_os =
      Some (AgentOS description [agent] true [agui]) /\
    heap (run environ "server").2 !! agui = Some (AGUI agent) /\
    heap (run environ "server").2 !! app = Some (App agent_os) /\
    map_Forall (fun _ v => v <> VRef agui) (globals (run environ "server").2).
Proof.
  apply (interface_and_handler_wired
           {["BLOCKETHER_LLM_API_BASE_URL" := "http://x"]} "server" "http://x").
  - reflexivity.
  - discriminate.
Defined.

(** X9 (lines 18-34).  The port text is converted last.  In any process,
    when the base URL is set to a non-empty string and [int] rejects the
    port text, the main run ends with the error of [int] having built all
    six objects and bound the five names, and its state differs from the
    state of the import run in the same environment only by the read of
    PORT at the end of the log. *)
Theorem bad_port_after_construction
    (int : string -> option Z) (uvicorn : ref -> string -> Z -> option string)
    (environ : gmap string string) (url : string) :
  environ !! "BLOCKETHER_LLM_API_BASE_URL" = Some url ->
  url <> "" ->
  int (port_text environ) = None ->
  (run_in int uvicorn environ "__main__").1 =
    Raise (IntValueError (port_text environ)) /\
  (run_in int uvicorn environ "server").1 = Ok tt /\
  heap (run_in int uvicorn environ "__main__").2 =
    heap (run_in int uvicorn environ "server").2 /\
  length (heap (run_in int uvicorn environ "__main__").2) = 6%nat /\
  globals (run_in int uvicorn environ "__main__").2 =
    globals (run_in int uvicorn environ "server").2 /\
  Forall (fun n => is_Some (globals (run_in int uvicorn environ "__main__").2 !! n))
         object_names /\
  log (run_in int uvicorn environ "__main__").2 =
    (log (run_in int uvicorn environ "server").2 ++ [EvGetenv "PORT"])%list.
Proof.
  intros Hb Hne Hp.
  rewrite !run_in_cases, (truthy_set _ _ _ Hb Hne), Hp. cbn [String.eqb Ascii.eqb Bool.eqb].
  do 5 (split; [reflexivity|]). split; [|reflexivity].
  unfold object_names, built; cbn [snd globals].
  repeat constructor;
    rewrite ?lookup_insert_ne by discriminate; rewrite lookup_insert_eq; eauto.
Qed.

Lemma bad_port_after_construction_witness :
  let environ : gmap string string :=
    <["PORT" := "http"]> {["BLOCKETHER_LLM_API_BASE_URL" := "http://x"]} in
  (run_in Py.int returns environ "__main__").1 =
    Raise (IntValueError (port_text environ)) /\
  (run_in Py.int returns environ "server").1 = Ok tt /\
  heap (run_in Py.int returns environ "__main__").2 =
    heap (run_in Py.int returns environ "server").2 /\
  length (heap (run_in Py.int returns environ "__main__").2) = 6%nat /\
  globals (run_in Py.int returns environ "__main__").2 =
    globals (run_in Py.int returns environ "server").2 /\
  Forall (fun n => is_Some (globals (run_in Py.int returns environ "__main__").2 !! n))
         object_names /\
  log (run_in Py.int returns environ "__main__").2 =
    (log (run_in Py.int returns environ "server").2 ++ [EvGetenv "PORT"])%list.
Proof.
  apply (bad_port_after_construction Py.int returns
           (<["PORT" := "http"]> {["BLOCKETHER_LLM_API_BASE_URL" := "http://x"]})
           "http://x").
  - reflexivity.
  - discriminate.
  - reflexivity.
Defined.

(** ** The port text *)



Lemma digit_not_underscore (c : ascii) (d : Z) :
  Py.digit c = Some d -> Ascii.eqb c "_" = false.
Proof.
  intros Hd. destruct (Ascii.eqb c "_") eqn:E; [|reflexivity].
  apply Ascii.eqb_eq in E. subst c. discriminate Hd.
Qed.

(** On a text of digits the digit loop reads everything and computes the
    decimal value. *)
Lemma scan_digits_all_digits (s : string) :
  forall (prev : bool) (acc n : Z),
    all_digits s = true ->
    (s = "" -> prev = false) ->
    Py.scan_digits s prev acc n =
      Some (decimal acc s, n + Z.of_nat (String.length s), "").
Proof.
  induction s as [|c s IH]; intros prev acc n Hall Hprev.
  - rewrite (Hprev eq_refl). cbn. now rewrite Z.add_0_r.
  - cbn [all_digits] in Hall. apply andb_prop in Hall as [Hc Hs].
    apply bool_decide_eq_true in Hc as [d Hd].
    cbn [Py.scan_digits decimal String.length].
    rewrite (digit_not_underscore c d Hd), Hd.
    rewrite (IH false _ _ Hs (fun _ => eq_refl)). cbn [default from_option id].
    do 2 f_equal. f_equal. lia.
Qed.

(** A text that starts with a digit has no white space, sign or underscore
    to skip. *)
Lemma int_digit_head (c : ascii) (rest : string) (d : Z) :
  Py.digit c = Some d ->
  Py.int (String c rest) =
    match Py.scan_digits (String c rest) false 0 0 with
    | None => None
    | Some (v, digits, rest') =>
        if digits =? 0 then None
        else if Py.int_max_str_digits <? digits then None
        else
          match Py.skip_space rest' with
          | EmptyString => Some v
          | String _ _ => None
          end
    end.
Proof.
  intros Hd.
  destruct c as [[] [] [] [] [] [] [] []]; vm_compute in Hd; try discriminate Hd;
    reflexivity.
Qed.

Lemma int_decimal (s : string) :
  all_digits s = true ->
  s <> "" ->
  (String.length s <= 4300)%nat ->
  Py.int s = Some (decimal 0 s).
Proof.
  intros Hall Hne Hlen. destruct s as [|c rest]; [contradiction|].
  pose proof Hall as Hc. cbn [all_digits] in Hc. apply andb_prop in Hc as [Hc _].
  apply bool_decide_eq_true in Hc as [d Hd].
  rewrite (int_digit_head c rest d Hd).
  rewrite (scan_digits_all_digits _ false 0 0 Hall) by discriminate.
  cbn [String.length] in *. unfold Py.int_max_str_digits.
  destruct (Z.eqb_spec (0 + Z.of_nat (S (String.length rest))) 0); [lia|].
  destruct (Z.ltb_spec 4300 (0 + Z.of_nat (S (String.length rest)))); [lia|].
  reflexivity.
Qed.



Lemma all_digits_isascii (s : string) : all_digits s = true -> isascii s = true.
Proof.
  induction s as [|c s IH]; [reflexivity|].
  cbn [all_digits isascii]. intros [Hc Hs]%andb_prop.
  apply bool_decide_eq_true in Hc as [d Hd]. rewrite (IH Hs), andb_true_r.
  unfold Py.digit in Hd.
  destruct ((48 <=? Py.ord c) && (Py.ord c <=? 57)) eqn:E; [|discriminate].
  apply andb_prop in E as [_ E]. apply Z.leb_le in E. apply Z.ltb_lt. lia.
Qed.

(** X12 (line 34).  The script applies no range check to the port.  In any
    process, with the base URL configured and PORT a text of 1 to 640
    decimal digits, leading zeros allowed, the main run calls uvicorn.run
    with the decimal value of the text, however large, for instance 70000,
    and ends as that call does. *)
Theorem decimal_port_passed_unchecked
    (int : string -> option Z) (uvicorn : ref -> string -> Z -> option string)
    (environ : gmap string string) (url text : string) :
  agrees_on_short_ascii int ->
  environ !! "BLOCKETHER_LLM_API_BASE_URL" = Some url ->
  url <> "" ->
  environ !! "PORT" = Some text ->
  all_digits text = true ->
  text <> "" ->
  (String.length text <= 640)%nat ->
  exists app,
    globals (run_in int uvicorn environ "__main__").2 !! "app" = Some (VRef app) /\
    serve_calls (log (run_in int uvicorn environ "__main__").2) =
      [(app, "0.0.0.0", decimal 0 text)] /\
    (run_in int uvicorn environ "__main__").1 =
      match uvicorn app "0.0.0.0" (decimal 0 text) with
      | None => Ok tt
      | Some what => Raise (ServerError what)
      end.
Proof.
  intros Hint Hb Hne Hp Hall Hnonempty Hlen.
  assert (Hi : int (port_text environ) = Some (decimal 0 text)).
  { unfold port_text. rewrite Hp. cbn [default from_option id].
    rewrite (Hint text (all_digits_isascii text Hall) Hlen).
    apply int_decimal; [exact Hall | exact Hnonempty | lia]. }
  rewrite run_in_cases, (truthy_set _ _ _ Hb Hne), Hi.
  exists 5%nat. split; [|split; reflexivity].
  unfold built; cbn [snd globals]. apply lookup_insert_eq.
Qed.

Lemma decimal_port_passed_unchecked_witness :
  let environ : gmap string string :=
    <["PORT" := "70000"]> {["BLOCKETHER_LLM_API_BASE_URL" := "http://x"]} in
  exists app,
    globals (run_in Py.int refuses_out_of_range environ "__main__").2 !! "app" =
      Some (VRef app) /\
    serve_calls (log (run_in Py.int refuses_out_of_range environ "__main__").2) =
      [(app, "0.0.0.0", decimal 0 "70000")] /\
    (run_in Py.int refuses_out_of_range environ "__main__").1 =
      match refuses_out_of_range app "0.0.0.0" (decimal 0 "70000") with
      | None => Ok tt
      | Some what => Raise (ServerError what)
      end.
Proof.
  apply (decimal_port_passed_unchecked Py.int refuses_out_of_range
           (<["PORT" := "70000"]> {["BLOCKETHER_LLM_API_BASE_URL" := "http://x"]})
           "http://x" "70000").
  - intros text _ _. reflexivity.
  - reflexivity.
  - discriminate.
  - reflexivity.
  - reflexivity.
  - discriminate.
  - cbn. lia.
Defined.

(** A minus sign in front of a digit: the digits are scanned as before and
    the value is negated. *)
Lemma int_minus_head (c : ascii) (rest : string) (d : Z) :
  Py.digit c = Some d ->
  Py.int (String "-" (String c rest)) =
    match Py.scan_digits (String c rest) false 0 0 with
    | None => None
    | Some (v, digits, rest') =>
        if digits =? 0 then None
        else if Py.int_max_str_digits <? digits then None
        else
          match Py.skip_space rest' with
          | EmptyString => Some (- v)
          | String _ _ => None
          end
    end.
Proof.
  intros Hd.
  destruct c as [[] [] [] [] [] [] [] []]; vm_compute in Hd; try discriminate Hd;
    reflexivity.
Qed.

Lemma int_minus_decimal (s : string) :
  all_digits s = true ->
  s <> "" ->
  (String.length s <= 4300)%nat ->
  Py.int (String "-" s) = Some (- decimal 0 s).
Proof.
  intros Hall Hne Hlen. destruct s as [|c rest]; [contradiction|].
  pose proof Hall as Hc. cbn [all_digits] in Hc. apply andb_prop in Hc as [Hc _].
  apply bool_decide_eq_true in Hc as [d Hd].
  rewrite (int_minus_head c rest d Hd).
  rewrite (scan_digits_all_digits _ false 0 0 Hall) by discriminate.
  cbn [String.length] in *. unfold Py.int_max_str_digits.
  destruct (Z.eqb_spec (0 + Z.of_nat (S (String.length rest))) 0); [lia|].
  destruct (Z.ltb_spec 4300 (0 + Z.of_nat (S (String.length rest)))); [lia|].
  reflexivity.
Qed.

(** X13 (line 34).  A negative port is passed on as well.  In any process,
    with the base URL configured and PORT a minus sign followed by 1 to 639
    decimal digits, the main run calls uvicorn.run with the negated decimal
    value, for instance -1, and ends as that call does. *)
Theorem negative_port_passed_unchecked
    (int : string -> option Z) (uvicorn : ref -> string -> Z -> option string)
    (environ : gmap string string) (url digits : string) :
  agrees_on_short_ascii int ->
  environ !! "BLOCKETHER_LLM_API_BASE_URL" = Some url ->
  url <> "" ->
  environ !! "PORT" = Some (String "-" digits) ->
  all_digits digits = true ->
  digits <> "" ->
  (String.length digits < 640)%nat ->
  exists app,
    globals (run_in int uvicorn environ "__main__").2 !! "app" = Some (VRef app) /\
    serve_calls (log (run_in int uvicorn environ "__main__").2) =
      [(app, "0.0.0.0", - decimal 0 digits)] /\
    (run_in int uvicorn environ "__main__").1 =
      match uvicorn app "0.0.0.0" (- decimal 0 digits) with
      | None => Ok tt
      | Some what => Raise (ServerError what)
      end.
Proof.
  intros Hint Hb Hne Hp Hall Hnonempty Hlen.
  assert (Hi : int (port_text environ) = Some (- decimal 0 digits)).
  { unfold port_text. rewrite Hp. cbn [default from_option id].
    rewrite Hint.
    - apply int_minus_decimal; [exact Hall | exact Hnonempty | lia].
    - cbn [isascii]. now rewrite (all_digits_isascii digits Hall).
    - cbn [String.length]. lia. }
  rewrite run_in_cases, (truthy_set _ _ _ Hb Hne), Hi.
  exists 5%nat. split; [|split; reflexivity].
  unfold built; cbn [snd globals]. apply lookup_insert_eq.
Qed.

Lemma negative_port_passed_unchecked_witness :
  let environ : gmap string string :=
    <["PORT" := "-1"]> {["BLOCKETHER_LLM_API_BASE_URL" := "http://x"]} in
  exists app,
    globals (run_in Py.int refuses_out_of_range environ "__main__").2 !! "app" =
      Some (VRef app) /\
    serve_calls (log (run_in Py.int refuses_out_of_range environ "__main__").2) =
      [(app, "0.0.0.0", - decimal 0 "1")] /\
    (run_in Py.int refuses_out_of_range environ "__main__").1 =
      match refuses_out_of_range app "0.0.0.0" (- decimal 0 "1") with
      | None => Ok tt
      | Some what => Raise (ServerError what)
      end.
Proof.
  apply (negative_port_passed_unchecked Py.int refuses_out_of_range
           (<["PORT" := "-1"]> {["BLOCKETHER_LLM_API_BASE_URL" := "http://x"]})
           "http://x" "1").
  - intros text _ _. reflexivity.
  - reflexivity.
  - discriminate.
  - reflexivity.
  - reflexivity.
  - discriminate.
  - cbn. lia.
Defined.

(** ** Checks of the process-generic run on concrete inputs *)

Example out_of_range_port_is_the_servers_error :
  run_in Py.int refuses_out_of_range
    (<["PORT" := "70000"]> {["BLOCKETHER_LLM_API_BASE_URL" := "http://x"]})
    "__main__" =
  (Raise (ServerError "OverflowError"),
   built (<["PORT" := "70000"]> {["BLOCKETHER_LLM_API_BASE_URL" := "http://x"]})
         [EvGetenv "PORT"; EvServe 5%nat "0.0.0.0" 70000]).
Proof. reflexivity. Qed.

Example default_port_in_range :
  run_in Py.int refuses_out_of_range
    {["BLOCKETHER_LLM_API_BASE_URL" := "http://x"]} "__main__" =
  (Ok tt,
   built {["BLOCKETHER_LLM_API_BASE_URL" := "http://x"]}
         [EvGetenv "PORT"; EvServe 5%nat "0.0.0.0" 8080]).
Proof. reflexivity. Qed.
